(** * vscode-database-client: the Elasticsearch dialect and the tree data provider

    A shallow embedding of [src/service/dialect/esDialect.ts] and of
    [src/provider/treeDataProvider.ts], and the properties of the dialect
    layer and of the provider that hold of them. *)

From Stdlib Require Import ZArith Floats Ascii String.
From stdpp Require Import base option strings pretty list gmap.

Local Open Scope string_scope.

(** ** Completions

    A TypeScript method either returns a value or throws.  The only value the
    sources throw themselves is [new Error(msg)]; of an [Error] the message is
    what can be observed. *)

Record Error := mkError { message : string }.

Inductive completion (A : Type) : Type :=
| Return (v : A)
| Throw (e : Error).

Arguments Return {A} v.
Arguments Throw {A} e.

Definition returned {A} (c : completion A) : option A :=
  match c with
  | Return v => Some v
  | Throw _ => None
  end.

Definition throws {A} (c : completion A) : bool :=
  match c with
  | Return _ => false
  | Throw _ => true
  end.

(** ** EsDialect

    [class EsDialect extends SqlDialect]: thirty methods, none of which reads
    a parameter or a field.  A parameter of type [string] is a [string]; the
    [pageSize: number] of [buildPageSql] is a binary64 float. *)

Module EsDialect.

Definition variableList : completion string :=
  Throw (mkError "Method not implemented.").
Definition statusList : completion string :=
  Throw (mkError "Method not implemented.").
Definition processList : completion string :=
  Throw (mkError "Method not implemented.").
Definition updateColumn (table column type comment nullable : string)
  : completion string := Return "".
Definition showDatabases : completion string := Return "".
Definition showTables (database : string) : completion string := Return "".
Definition addColumn (table : string) : completion string := Return "".
Definition showColumns (database table : string) : completion string :=
  Return "".
Definition showViews (database : string) : completion string := Return "".
Definition showSystemViews (database : string) : completion string :=
  Return "".
Definition showUsers : completion string := Return "".
Definition createUser : completion string := Return "".
Definition showTriggers (database : string) : completion string := Return "".
Definition showProcedures (database : string) : completion string :=
  Return "".
Definition showFunctions (database : string) : completion string :=
  Return "".
Definition buildPageSql (database table : string) (pageSize : float)
  : completion string := Return "".
Definition countSql (database table : string) : completion string :=
  Return "".
Definition createDatabase (database : string) : completion string :=
  Return "".
Definition truncateDatabase (database : string) : completion string :=
  Return "".
Definition renameTable (database tableName newName : string)
  : completion string := Return "".
Definition showTableSource (database table : string) : completion string :=
  Return "".
Definition showViewSource (database table : string) : completion string :=
  Return "".
Definition showProcedureSource (database name : string)
  : completion string := Return "".
Definition showFunctionSource (database name : string)
  : completion string := Return "".
Definition showTriggerSource (database name : string)
  : completion string := Return "".
Definition tableTemplate : completion string := Return "".
Definition viewTemplate : completion string := Return "".
Definition procedureTemplate : completion string := Return "".
Definition triggerTemplate : completion string := Return "".
Definition functionTemplate : completion string := Return "".

End EsDialect.

(** ** The operation set and the request

    The methods of the class, as a type, so that a property can range over
    all of them. *)

Inductive operation : Set :=
| variableList | statusList | processList
| updateColumn | showDatabases | showTables | addColumn | showColumns
| showViews | showSystemViews | showUsers | createUser | showTriggers
| showProcedures | showFunctions
| buildPageSql | countSql | createDatabase | truncateDatabase | renameTable
| showTableSource | showViewSource | showProcedureSource
| showFunctionSource | showTriggerSource
| tableTemplate | viewTemplate | procedureTemplate | triggerTemplate
| functionTemplate.

Global Instance operation_eq_dec : EqDecision operation.
Proof. solve_decision. Defined.

(** Every method of [EsDialect], in the order of the class. *)
Definition operations : list operation :=
  [ variableList; statusList; processList;
    updateColumn; showDatabases; showTables; addColumn; showColumns;
    showViews; showSystemViews; showUsers; createUser; showTriggers;
    showProcedures; showFunctions;
    buildPageSql; countSql; createDatabase; truncateDatabase; renameTable;
    showTableSource; showViewSource; showProcedureSource;
    showFunctionSource; showTriggerSource;
    tableTemplate; viewTemplate; procedureTemplate; triggerTemplate;
    functionTemplate ].

(** The three methods whose body is a [throw]. *)
Definition unimplemented : list operation :=
  [ variableList; statusList; processList ].

(** Modelled from the spec: the fixed operation set of section 4.1, for which
    the source has no declaration: show databases, tables, columns, views,
    system views, users, triggers, procedures and functions; add and update
    column; paginate and count; create and truncate database; rename table;
    show source of table, view, procedure, function and trigger; create user;
    the five templates. *)
Definition enumerated : list operation :=
  [ showDatabases; showTables; showColumns; showViews; showSystemViews;
    showUsers; showTriggers; showProcedures; showFunctions;
    addColumn; updateColumn;
    buildPageSql; countSql;
    createDatabase; truncateDatabase;
    renameTable;
    showTableSource; showViewSource; showProcedureSource;
    showFunctionSource; showTriggerSource;
    createUser;
    tableTemplate; viewTemplate; procedureTemplate; triggerTemplate;
    functionTemplate ].

(** Modelled from the spec: the OperationRequest of section 3, the parameters
    of one generation call; the source passes them as positional arguments.
    One field per parameter name of the class. *)
Record OperationRequest := mkRequest {
  req_database : string;
  req_table : string;
  req_tableName : string;
  req_newName : string;
  req_name : string;
  req_column : string;
  req_type : string;
  req_comment : string;
  req_nullable : string;
  req_pageSize : float
}.

(** One call of a method of [EsDialect] with its arguments taken from the
    request. *)
Definition call (op : operation) (req : OperationRequest) : completion string :=
  match op with
  | variableList => EsDialect.variableList
  | statusList => EsDialect.statusList
  | processList => EsDialect.processList
  | updateColumn =>
      EsDialect.updateColumn (req_table req) (req_column req) (req_type req)
        (req_comment req) (req_nullable req)
  | showDatabases => EsDialect.showDatabases
  | showTables => EsDialect.showTables (req_database req)
  | addColumn => EsDialect.addColumn (req_table req)
  | showColumns => EsDialect.showColumns (req_database req) (req_table req)
  | showViews => EsDialect.showViews (req_database req)
  | showSystemViews => EsDialect.showSystemViews (req_database req)
  | showUsers => EsDialect.showUsers
  | createUser => EsDialect.createUser
  | showTriggers => EsDialect.showTriggers (req_database req)
  | showProcedures => EsDialect.showProcedures (req_database req)
  | showFunctions => EsDialect.showFunctions (req_database req)
  | buildPageSql =>
      EsDialect.buildPageSql (req_database req) (req_table req)
        (req_pageSize req)
  | countSql => EsDialect.countSql (req_database req) (req_table req)
  | createDatabase => EsDialect.createDatabase (req_database req)
  | truncateDatabase => EsDialect.truncateDatabase (req_database req)
  | renameTable =>
      EsDialect.renameTable (req_database req) (req_tableName req)
        (req_newName req)
  | showTableSource =>
      EsDialect.showTableSource (req_database req) (req_table req)
  | showViewSource =>
      EsDialect.showViewSource (req_database req) (req_table req)
  | showProcedureSource =>
      EsDialect.showProcedureSource (req_database req) (req_name req)
  | showFunctionSource =>
      EsDialect.showFunctionSource (req_database req) (req_name req)
  | showTriggerSource =>
      EsDialect.showTriggerSource (req_database req) (req_name req)
  | tableTemplate => EsDialect.tableTemplate
  | viewTemplate => EsDialect.viewTemplate
  | procedureTemplate => EsDialect.procedureTemplate
  | triggerTemplate => EsDialect.triggerTemplate
  | functionTemplate => EsDialect.functionTemplate
  end.

(** Modelled from the spec: the StatementResult of section 3 with the error
    values of section 7; the source declares none of them, its methods return
    [string]. *)
Inductive StatementResult : Type :=
| Generated (text : string)
| Unsupported (op reason : string)
| UnsupportedType (logicalType : string)
| InvalidRequest (field : string)
| UnknownBackend (kind : string).

(** What a call of the source hands its caller, in the spec's vocabulary.  The
    declared return type is [string], the statement text, and an empty string
    is a statement like any other (section 9: it is indistinguishable from a
    valid empty statement); a thrown [Error] is no result value. *)
Definition asStatementResult (c : completion string) : option StatementResult :=
  match c with
  | Return text => Some (Generated text)
  | Throw _ => None
  end.

Definition isUnsupported (r : option StatementResult) : Prop :=
  ∃ op reason, r = Some (Unsupported op reason).

Definition isGenerated (r : option StatementResult) : Prop :=
  ∃ text, r = Some (Generated text).

Definition isInvalidRequest (r : option StatementResult) : Prop :=
  ∃ field, r = Some (InvalidRequest field).

(** ** Identifier quoting *)

Module Quoting.

(** Modelled from the spec: the quoting rule of a dialect family; the source
    has no quoting code.  Section 4.2: the rules differ by family, backtick,
    double quote, bracket or none. *)
Inductive QuoteStyle : Set :=
| Backtick
| DoubleQuote
| Bracket
| NoQuote.

(** Modelled from the spec: the opening and the closing character of a style;
    [None] for the family that quotes nothing. *)
Definition delimiters (style : QuoteStyle) : option (ascii * ascii) :=
  match style with
  | Backtick => Some ("`"%char, "`"%char)
  | DoubleQuote => Some ("034"%char, "034"%char)
  | Bracket => Some ("["%char, "]"%char)
  | NoQuote => None
  end.

(** Modelled from the spec: the escaping primitive of section 4.4, quote
    doubling, applied to the closing character of the style. *)
Fixpoint escape (close : ascii) (s : string) : string :=
  match s with
  | EmptyString => EmptyString
  | String c rest =>
      if Ascii.eqb c close
      then String close (String close (escape close rest))
      else String c (escape close rest)
  end.

(** Modelled from the spec: the quoting rule: the escaped identifier between
    the delimiters of the style. *)
Definition quote (style : QuoteStyle) (identifier : string) : string :=
  match delimiters style with
  | None => identifier
  | Some (open, close) =>
      String open (escape close identifier ++ String close EmptyString)
  end.

(** Modelled from the spec: the text up to the closing delimiter, which must
    end the input; a doubled closing character stands for one. *)
Fixpoint unescape (close : ascii) (s : string) : option string :=
  match s with
  | EmptyString => None
  | String c rest =>
      if Ascii.eqb c close
      then match rest with
           | EmptyString => Some EmptyString
           | String c' rest' =>
               if Ascii.eqb c' close
               then String close <$> unescape close rest'
               else None
           end
      else String c <$> unescape close rest
  end.

(** Modelled from the spec: the unquoting rule, the inverse reading of
    [quote]; [None] on a text that is not a quoted identifier. *)
Definition unquote (style : QuoteStyle) (quoted : string) : option string :=
  match delimiters style with
  | None => Some quoted
  | Some (open, close) =>
      match quoted with
      | EmptyString => None
      | String c rest => if Ascii.eqb c open then unescape close rest else None
      end
  end.

End Quoting.

(** ** The tree data provider *)

(** Modelled from the spec: the BackendKind tag of section 3, [DatabaseType]
    in the source, whose declaration (common/constants) is not among the
    sources.  [ES] (document search), [REDIS] (key-value) and [SSH] (tunnel
    only) are the members the provider names; [OtherType] is every other
    value a stored [dbType] can have: a relational kind, or a kind that no
    version lists. *)
Inductive DatabaseType : Set :=
| ES
| REDIS
| SSH
| OtherType (tag : string).

Global Instance DatabaseType_eq_dec : EqDecision DatabaseType.
Proof. solve_decision. Defined.

(** A stored connection, the [connectInfo] of [getNode]: the fields the
    provider reads, and every other stored property as a name and a value. *)
Record ConnectInfo := mkConnectInfo {
  dbType : DatabaseType;
  ci_name : string;
  ssh : list (string * string);
  ci_global : option bool;
  ci_rest : list (string * string)
}.

(** A [new] expression of the provider with its arguments, and [NewOther] for
    a node of any class that only [element.getChildren()] creates. *)
Inductive Construction : Type :=
| NewEsConnectionNode (key : string) (connectInfo : ConnectInfo)
| NewRedisConnectionNode (key : string) (connectInfo : ConnectInfo)
| NewSSHConnectionNode (key : string) (sshConfig : list (string * string))
    (name : string)
| NewConnectionNode (key : string) (connectInfo : ConnectInfo)
| NewInfoNode (error : Error)
| NewOther (label : string).

(** [vscode.Memento]: values by cache key; the values the provider reads are
    objects from connection key to stored connection. *)
Abbreviation Memento := (gmap string (gmap string ConnectInfo)).

(** [Memento.get(key, defaultValue)]. *)
Definition Memento_get (m : Memento) (key : string)
    (defaultValue : gmap string ConnectInfo) : gmap string ConnectInfo :=
  default defaultValue (m !! key).

Record ExtensionContext := mkExtensionContext {
  globalState : Memento;
  workspaceState : Memento
}.

Record DbTreeDataProvider := mkDbTreeDataProvider {
  context : ExtensionContext;
  connectionKey : string
}.

(** Which of the two mementos of the provider's context a node refers to. *)
Inductive StateRef : Set :=
| WorkspaceState
| GlobalState.

(** Objects live in a heap and are referred to by location. *)
Abbreviation loc := positive.

(** A node object: how it was constructed, and the fields the provider
    assigns.  [None] is [undefined]. *)
Record Node := mkNode {
  construction : Construction;
  node_provider : option DbTreeDataProvider;
  node_global : option bool;
  node_context : option StateRef;
  node_parent : option loc
}.

Definition set_provider (p : DbTreeDataProvider) (n : Node) : Node :=
  mkNode (construction n) (Some p) (node_global n) (node_context n)
    (node_parent n).

Definition set_global (g : bool) (n : Node) : Node :=
  mkNode (construction n) (node_provider n) (Some g) (node_context n)
    (node_parent n).

Definition set_context (c : StateRef) (n : Node) : Node :=
  mkNode (construction n) (node_provider n) (node_global n) (Some c)
    (node_parent n).

Definition set_parent (element : loc) (n : Node) : Node :=
  mkNode (construction n) (node_provider n) (node_global n) (node_context n)
    (Some element).

(** The connection key a connection node was constructed with. *)
Definition key (n : Node) : option string :=
  match construction n with
  | NewEsConnectionNode k _ | NewRedisConnectionNode k _
  | NewSSHConnectionNode k _ _ | NewConnectionNode k _ => Some k
  | NewInfoNode _ | NewOther _ => None
  end.

(** The class [getNode] instantiates: its cascade of tests on [dbType]. *)
Definition construct (connectInfo : ConnectInfo) (key : string) : Construction :=
  if decide (dbType connectInfo = ES) then
    NewEsConnectionNode key connectInfo
  else if decide (dbType connectInfo = REDIS) then
    NewRedisConnectionNode key connectInfo
  else if decide (dbType connectInfo = SSH) then
    NewSSHConnectionNode key (ssh connectInfo) (ci_name connectInfo)
  else
    NewConnectionNode key connectInfo.

(** [{ ...globalConnections, ...workspaceConnections }]: the later spread
    overwrites, so on a common key the workspace entry stays. *)
Definition spread (globalConnections workspaceConnections : gmap string ConnectInfo)
  : gmap string ConnectInfo :=
  workspaceConnections ∪ globalConnections.

(** [this.context.globalState.get(this.connectionKey, {})] *)
Definition globalConnections (this : DbTreeDataProvider)
  : gmap string ConnectInfo :=
  Memento_get (globalState (context this)) (connectionKey this) ∅.

(** [this.context.workspaceState.get(this.connectionKey, {})] *)
Definition workspaceConnections (this : DbTreeDataProvider)
  : gmap string ConnectInfo :=
  Memento_get (workspaceState (context this)) (connectionKey this) ∅.

(** The project is compiled without strict null checks, so a value of type
    [Node] is a reference to a node object, [null] or [undefined], and a value
    of type [Node[]] is [null], [undefined] or an array of such values. *)
Inductive Nullish : Set :=
| Null
| Undefined.

Inductive NodeRef : Set :=
| NoNode (v : Nullish)
| NodeAt (l : loc).

Inductive Children : Set :=
| NoChildren (v : Nullish)
| ChildrenArray (items : list NodeRef).

(** The two ways in which the loop of [getChildren] can fail: [for...of] over
    a value that is not iterable, and [child.parent = element] on a child that
    is no object. *)
Inductive Fault : Set :=
| NotIterable (v : Nullish)
| CannotSetParent (v : Nullish).

Section Provider.

(** The node classes are not among the sources.  Of a constructor the
    provider depends on one thing only, the value of [global] it leaves. *)
Variable constructedGlobal : Construction → option bool.

(** [element.getChildren()], awaited: the method of the element's class. *)
Variable elementGetChildren :
  loc → gmap loc Node → gmap loc Node * completion Children.

(** The [TypeError] the engine throws for a fault; its message is the
    engine's own. *)
Variable typeError : Fault → Error.

(** A [new] expression: the constructors are taken to return, and to leave
    the fields that the provider assigns later unset. *)
Definition new (c : Construction) : Node :=
  mkNode c None (constructedGlobal c) None None.

Definition getNode (this : DbTreeDataProvider) (connectInfo : ConnectInfo)
    (key : string) : Node :=
  let node := new (construct connectInfo key) in
  let node := set_provider this node in
  let node :=
    if decide (node_global node = Some false) then node
    else set_global true node in
  set_context
    (if decide (node_global node = Some false) then WorkspaceState
     else GlobalState)
    node.

(** [Object.keys(connections).map(key => getNode(connections[key], key))];
    the order of the keys is the one of [map_to_list]. *)
Definition getConnectionNodes (this : DbTreeDataProvider) : list Node :=
  let connections :=
    spread (globalConnections this) (workspaceConnections this) in
  (λ entry, getNode this entry.2 entry.1) <$> map_to_list connections.

(** Allocation of a new object. *)
Definition alloc (n : Node) (h : gmap loc Node) : loc * gmap loc Node :=
  let l := fresh (dom h) in (l, <[l := n]> h).

Fixpoint allocAll (ns : list Node) (h : gmap loc Node)
  : list loc * gmap loc Node :=
  match ns with
  | [] => ([], h)
  | n :: rest =>
      let (l, h1) := alloc n h in
      let (ls, h2) := allocAll rest h1 in
      (l :: ls, h2)
  end.

(** The assignments [child.parent = element] to a list of node objects, in
    order. *)
Definition setParents (element : loc) (children : list loc)
    (h : gmap loc Node) : gmap loc Node :=
  foldl (λ h child, alter (set_parent element) child h) h children.

(** The loop [for (const child of children) { child.parent = element; }]
    over an array: it stops with a [TypeError] at the first child that is no
    object, after the assignments to the children before it; when it
    completes, every child is an object, and the result lists their
    references. *)
Fixpoint assignParents (element : loc) (children : list NodeRef)
    (h : gmap loc Node) : gmap loc Node * completion (list loc) :=
  match children with
  | [] => (h, Return [])
  | NodeAt child :: rest =>
      let (h1, r) :=
        assignParents element rest (alter (set_parent element) child h) in
      (h1,
       match r with
       | Return ls => Return (child :: ls)
       | Throw error => Throw error
       end)
  | NoNode v :: _ => (h, Throw (typeError (CannotSetParent v)))
  end.

(** The body of the [try] block of [getChildren]: the awaited call, the loop
    and [return children]. *)
Definition tryGetChildren (element : loc) (h : gmap loc Node)
  : gmap loc Node * completion (list loc) :=
  match elementGetChildren element h with
  | (h1, Return (ChildrenArray children)) => assignParents element children h1
  | (h1, Return (NoChildren v)) => (h1, Throw (typeError (NotIterable v)))
  | (h1, Throw error) => (h1, Throw error)
  end.

(** [getChildren(element?)]: the heap after the call and how the returned
    promise settles, [Return] for fulfilled and [Throw] for rejected.  The
    [catch] covers the whole [try] block, the loop included. *)
Definition getChildren (this : DbTreeDataProvider) (element : option loc)
    (h : gmap loc Node) : gmap loc Node * completion (list loc) :=
  match element with
  | None =>
      let (ls, h1) := allocAll (getConnectionNodes this) h in
      (h1, Return ls)
  | Some element =>
      match tryGetChildren element h with
      | (h1, Return children) => (h1, Return children)
      | (h1, Throw error) =>
          let (l, h2) := alloc (new (NewInfoNode error)) h1 in
          (h2, Return [l])
      end
  end.

End Provider.

(** ** The cache key of a connection *)

(** The two members of [CacheKey] (common/constants, not among the sources)
    that the provider names. *)
Inductive CacheKey : Set :=
| NOSQL_CONNECTION
| ConectionsKey.

(** [getKeyByNode(connectionNode)]; its argument has the type of a stored
    connection. *)
Definition getKeyByNode (connectionNode : ConnectInfo) : CacheKey :=
  if bool_decide (dbType connectionNode = ES)
     || bool_decide (dbType connectionNode = REDIS)
     || bool_decide (dbType connectionNode = SSH)
  then NOSQL_CONNECTION
  else ConectionsKey.

(** ** The providers of the process and their change events

    [DbTreeDataProvider.instances] is a static array; every provider has an
    event emitter of its own, and what is observed of [fire(element)] is that
    it was called: the log holds the provider and the element of each call,
    oldest first. *)

Record Registry := mkRegistry {
  instances : list DbTreeDataProvider;
  fired : list (DbTreeDataProvider * option loc)
}.

Definition fire (this : DbTreeDataProvider) (element : option loc)
    (r : Registry) : Registry :=
  mkRegistry (instances r) (fired r ++ [(this, element)])%list.

(** [new DbTreeDataProvider(context, connectionKey)]: the constructor pushes
    the new provider on [instances]. *)
Definition constructor (context : ExtensionContext) (connectionKey : string)
    (r : Registry) : DbTreeDataProvider * Registry :=
  let this := mkDbTreeDataProvider context connectionKey in
  (this, mkRegistry (instances r ++ [this])%list (fired r)).

(** [reload(element?)] *)
Definition reload (this : DbTreeDataProvider) (element : option loc)
    (r : Registry) : Registry :=
  fire this element r.

(** [static refresh(element?)]: the loop over [instances]. *)
Definition refresh (element : option loc) (r : Registry) : Registry :=
  foldl (λ r instance, fire instance element r) r (instances r).

(** [static getInstnace()] *)
Definition getInstnace (r : Registry) : list DbTreeDataProvider :=
  instances r.

(** The calls a program can make on the registry, and a program as a list of
    them. *)
Inductive RegistryCall : Type :=
| CallNew (context : ExtensionContext) (connectionKey : string)
| CallReload (this : DbTreeDataProvider) (element : option loc)
| CallRefresh (element : option loc).

Definition registryStep (r : Registry) (c : RegistryCall) : Registry :=
  match c with
  | CallNew context connectionKey => (constructor context connectionKey r).2
  | CallReload this element => reload this element r
  | CallRefresh element => refresh element r
  end.

Definition registryRun (calls : list RegistryCall) (r : Registry) : Registry :=
  foldl registryStep r calls.

(** ** activeDb *)

(** The class of a node of the database cache, as far as [activeDb] tells
    them apart with [instanceof]. *)
Inductive DbNodeClass : Set :=
| UserGroup
| CatalogNode
| SchemaNode.

(** A node of [DatabaseCache.getDatabaseNodeList()]: its class and the two
    fields [activeDb] reads. *)
Record DbNode := mkDbNode {
  dbClass : DbNodeClass;
  uid : string;
  schema : string
}.

(** What [activeDb] does to its surroundings, in order: the calls on
    [vscode.window] and on [ConnectionManager]. *)
Inductive UiEvent : Type :=
| ShowErrorMessage (msg : string)
| ShowQuickPick (items : list string)
| ChangeActive (dbNode : option DbNode)
| ShowInformationMessage (msg : string).

(** [dbNode instanceof UserGroup || dbNode instanceof CatalogNode] *)
Definition skipped (dbNode : DbNode) : bool :=
  match dbClass dbNode with
  | UserGroup | CatalogNode => true
  | SchemaNode => false
  end.

(** [numbers ? dbNode.uid : dbNode.schema] *)
Definition dbId (numbers : bool) (dbNode : DbNode) : string :=
  if numbers then uid dbNode else schema dbNode.

(** The loop of [activeDb] over the cached nodes: [dbIdList.push(uid)] and
    [dbIdMap.set(uid, dbNode)]. *)
Definition collectDbIds (numbers : bool) (databaseNodeList : list DbNode)
  : list string * gmap string DbNode :=
  foldl
    (λ (acc : list string * gmap string DbNode) dbNode,
       if skipped dbNode then acc
       else ((acc.1 ++ [dbId numbers dbNode])%list,
             <[dbId numbers dbNode := dbNode]> acc.2))
    ([], ∅) databaseNodeList.

(** A string in a condition: the empty string is falsy. *)
Definition truthy (s : string) : bool :=
  match s with
  | EmptyString => false
  | String _ _ => true
  end.

Section ActiveDb.

Variable constructedGlobal : Construction → option bool.

(** [activeDb()].  Its surroundings are parameters: what
    [ConnectionManager.getByActiveFile()] returns, the nodes of the database
    cache, and what the quick pick resolves to for the items it is shown
    ([None] when it is dismissed).  The test [if (dbIdList)] on an array is
    always taken.  When the map has no node for the pick,
    [changeActive(undefined)] is called and the message template then
    throws. *)
Definition activeDb (this : DbTreeDataProvider)
    (activeFileNode : option DbNode) (databaseNodeList : list DbNode)
    (pick : list string → option string) : list UiEvent :=
  match activeFileNode with
  | Some _ =>
      [ShowErrorMessage "Query file can not change active database."]
  | None =>
      let numbers :=
        bool_decide (1 < length (getConnectionNodes constructedGlobal this)) in
      let collected := collectDbIds numbers databaseNodeList in
      ShowQuickPick collected.1 ::
        match pick collected.1 with
        | Some picked =>
            if truthy picked then
              match collected.2 !! picked with
              | Some dbNode =>
                  [ChangeActive (Some dbNode);
                   ShowInformationMessage
                     ("Change active schema to " ++ schema dbNode
                        ++ " success!")]
              | None => [ChangeActive None]
              end
            else []
        | None => []
        end
  end.

End ActiveDb.

(** ** The properties of the spec, as predicates on the embedding *)

(** Modelled from the spec: section 8, agreement of a capability descriptor
    [supports] with the generation calls over a set of operations.  The
    source has no descriptor, so it is a parameter. *)
Definition agrees (ops : list operation) (supports : operation → bool) : Prop :=
  ∀ op req, op ∈ ops →
    (supports op = false → isUnsupported (asStatementResult (call op req))) ∧
    (supports op = true → throws (call op req) = false) ∧
    ¬ (supports op = false ∧ isGenerated (asStatementResult (call op req))).

(** Modelled from the spec: a statement text that carries the offset [n]
    contains at least the decimal numeral of [n]. *)
Definition mentionsOffset (n : Z) (text : string) : bool :=
  bool_decide (is_Some (String.index 0 (pretty n) text)).

(** What the loop of [getChildren] leaves behind for the children it has
    visited: each of them that was an object of [h1] is in [h2] with [parent]
    referring to the element and every other field as before, and every
    object that is not among them is as it was. *)
Definition parentsAssigned (element : loc) (children : list loc)
    (h1 h2 : gmap loc Node) : Prop :=
  (∀ child n, child ∈ children → h1 !! child = Some n →
     ∃ n', h2 !! child = Some n' ∧
           node_parent n' = Some element ∧
           construction n' = construction n ∧
           node_provider n' = node_provider n ∧
           node_global n' = node_global n ∧
           node_context n' = node_context n) ∧
  (∀ l, l ∉ children → h2 !! l = h1 !! l).

(** A call that is fulfilled with a list of one reference, to an object that
    was not in [h1], is the only change to [h1], and was constructed as
    [new InfoNode(error)]. *)
Definition fulfilledWithInfoNode (error : Error) (h1 : gmap loc Node)
    (result : gmap loc Node * completion (list loc)) : Prop :=
  ∃ l node,
    h1 !! l = None ∧
    construction node = NewInfoNode error ∧
    result = (<[l := node]> h1, Return [l]).

(** ** Sample inputs *)

Definition shopOrders : OperationRequest :=
  mkRequest "shop" "orders" "orders" "orders_old" "orders_view" "total"
    "integer" "" "YES" 20%float.

Definition emptyRequest : OperationRequest :=
  mkRequest "" "" "" "" "" "" "" "" "" 0%float.

Definition futureInfo : ConnectInfo :=
  mkConnectInfo (OtherType "Future_Unlisted") "later" [] None [].

Definition prodInfo : ConnectInfo :=
  mkConnectInfo (OtherType "MySQL") "prod" [] None
    [("host", "db.example.org")].

Definition prodLocalInfo : ConnectInfo :=
  mkConnectInfo ES "prod" [] (Some false) [("host", "localhost")].

Definition stagingInfo : ConnectInfo :=
  mkConnectInfo REDIS "staging" [] None [("host", "cache.example.org")].

(** A provider whose global store holds "prod" and "staging" and whose
    workspace store holds "prod" again, with other data. *)
Definition sampleProvider : DbTreeDataProvider :=
  mkDbTreeDataProvider
    (mkExtensionContext
       (<["c" := <["prod" := prodInfo]> (<["staging" := stagingInfo]> ∅)]> ∅)
       (<["c" := <["prod" := prodLocalInfo]> ∅]> ∅))
    "c".

Definition plainNode (label : string) : Node :=
  mkNode (NewOther label) None None None None.

(** A heap of three nodes; the children of the first are the other two. *)
Definition sampleHeap : gmap loc Node :=
  <[1%positive := plainNode "schema"]>
    (<[2%positive := plainNode "orders"]>
       (<[3%positive := plainNode "customers"]> ∅)).

Definition sampleGetChildren (element : loc) (h : gmap loc Node)
  : gmap loc Node * completion Children :=
  (h, Return (ChildrenArray [NodeAt 2%positive; NodeAt 3%positive])).

Definition failingGetChildren (element : loc) (h : gmap loc Node)
  : gmap loc Node * completion Children :=
  (h, Throw (mkError "connect ECONNREFUSED")).

(** An element whose [getChildren()] succeeds with an array that holds a
    node and [null]. *)
Definition nullChildGetChildren (element : loc) (h : gmap loc Node)
  : gmap loc Node * completion Children :=
  (h, Return (ChildrenArray [NodeAt 2%positive; NoNode Null])).

(** The messages of one engine. *)
Definition sampleTypeError (f : Fault) : Error :=
  match f with
  | NotIterable _ => mkError "children is not iterable"
  | CannotSetParent Null =>
      mkError "Cannot set properties of null (setting 'parent')"
  | CannotSetParent Undefined =>
      mkError "Cannot set properties of undefined (setting 'parent')"
  end.

(** A provider with nothing stored under its connection key. *)
Definition emptyProvider : DbTreeDataProvider :=
  mkDbTreeDataProvider (mkExtensionContext ∅ ∅) "c".

(** A database cache of a user group and three schemas, two of which have the
    same name. *)
Definition sampleCache : list DbNode :=
  [ mkDbNode UserGroup "prod#users" "users";
    mkDbNode SchemaNode "prod#shop" "shop";
    mkDbNode SchemaNode "prod#crm" "crm";
    mkDbNode SchemaNode "staging#shop" "shop" ].

(** * Properties of EsDialect *)

Lemma call_unimplemented op req :
  op ∈ unimplemented → call op req = Throw (mkError "Method not implemented.").
Proof.
  unfold unimplemented. rewrite !elem_of_cons, elem_of_nil.
  intros [-> | [-> | [-> | []]]]; reflexivity.
Qed.

Lemma call_implemented op req :
  op ∉ unimplemented → call op req = Return "".
Proof.
  unfold unimplemented. rewrite !not_elem_of_cons.
  intros (H1 & H2 & H3 & _). destruct op; try reflexivity; congruence.
Qed.

Lemma enumerated_implemented op : op ∈ enumerated → op ∉ unimplemented.
Proof.
  intros Hin Hun. revert Hin. unfold unimplemented in Hun.
  rewrite !elem_of_cons, elem_of_nil in Hun.
  destruct Hun as [-> | [-> | [-> | []]]];
    apply (bool_decide_unpack (_ ∉ enumerated)); vm_compute; exact I.
Qed.

Lemma call_never_error_value op req :
  ¬ isUnsupported (asStatementResult (call op req)) ∧
  ¬ isInvalidRequest (asStatementResult (call op req)).
Proof.
  split; intros (? & H); [destruct H as (? & H) |];
    destruct (call op req); simpl in H; congruence.
Qed.

(** C1, as the spec states it, fails: [variableList], called on the
    document-store dialect, throws an [Error] and hands back no Unsupported
    result. *)
Lemma variableList_throws :
  call variableList shopOrders = Throw (mkError "Method not implemented.") ∧
  throws (call variableList shopOrders) = true ∧
  ¬ isUnsupported (asStatementResult (call variableList shopOrders)).
Proof.
  split; [reflexivity |]. split; [reflexivity |].
  apply call_never_error_value.
Qed.

(** C1, amended: every operation of EsDialect other than [variableList],
    [statusList] and [processList] returns without throwing, and what it
    returns is the empty string, a plain statement text and not an
    Unsupported result; these three throw
    [Error("Method not implemented.")]. *)
Theorem EsDialect_throws_or_returns_empty (op : operation) (req : OperationRequest) :
  (op ∈ unimplemented →
     call op req = Throw (mkError "Method not implemented.")) ∧
  (op ∉ unimplemented →
     call op req = Return "" ∧
     throws (call op req) = false ∧
     asStatementResult (call op req) = Some (Generated "")).
Proof.
  split.
  - apply call_unimplemented.
  - intros H. rewrite (call_implemented op req H). auto.
Qed.

Lemma EsDialect_throws_or_returns_empty_witness :
  call statusList shopOrders = Throw (mkError "Method not implemented.") ∧
  call showTriggers shopOrders = Return "".
Proof.
  split.
  - apply (proj1 (EsDialect_throws_or_returns_empty statusList shopOrders)).
    unfold unimplemented. apply list_elem_of_further, list_elem_of_here.
  - apply (proj2 (EsDialect_throws_or_returns_empty showTriggers shopOrders)).
    unfold unimplemented. rewrite !not_elem_of_cons.
    repeat split; [discriminate .. | apply not_elem_of_nil].
Defined.

(** C2, as the spec states it, fails.  Over the methods of the class no
    descriptor agrees with the calls, for [variableList] throws whatever the
    descriptor answers; over the enumerated set of section 4.1 no descriptor
    that reports triggers as absent from the document store agrees, for
    [showTriggers] returns a string. *)
Lemma no_descriptor_agrees :
  (¬ ∃ supports, agrees operations supports) ∧
  (¬ ∃ supports, supports showTriggers = false ∧ agrees enumerated supports).
Proof.
  split.
  - intros (supports & Hagree).
    destruct (Hagree variableList shopOrders) as (Hf & Ht & _).
    { unfold operations. apply list_elem_of_here. }
    destruct (supports variableList).
    + specialize (Ht eq_refl). discriminate Ht.
    + destruct (Hf eq_refl) as (? & ? & H). discriminate H.
  - intros (supports & Hs & Hagree).
    destruct (Hagree showTriggers shopOrders) as (Hf & _).
    { apply (bool_decide_unpack (_ ∈ enumerated)). vm_compute. exact I. }
    destruct (Hf Hs) as (? & ? & H). discriminate H.
Qed.

(** C2, amended: for EsDialect and every operation of the enumerated set,
    whatever a capability descriptor answers, the call does not throw; where
    the descriptor answers false the call returns the empty string, which is
    a statement text and not an Unsupported result. *)
Theorem EsDialect_enumerated_never_throw (supports : operation → bool)
    (op : operation) (req : OperationRequest) :
  op ∈ enumerated →
  throws (call op req) = false ∧
  (supports op = true → throws (call op req) = false) ∧
  (supports op = false →
     call op req = Return "" ∧
     asStatementResult (call op req) = Some (Generated "")).
Proof.
  intros Hin. apply enumerated_implemented in Hin.
  rewrite (call_implemented op req Hin). auto.
Qed.

Lemma EsDialect_enumerated_never_throw_witness :
  throws (call showTriggers shopOrders) = false ∧
  call showTriggers shopOrders = Return "".
Proof.
  assert (Hin : showTriggers ∈ enumerated).
  { unfold enumerated. do 6 apply list_elem_of_further. apply list_elem_of_here. }
  destruct (EsDialect_enumerated_never_throw (λ _, false) showTriggers shopOrders Hin)
    as (Hnothrow & _ & Hfalse).
  split; [exact Hnothrow | exact (proj1 (Hfalse eq_refl))].
Defined.

(** C4, as the spec states it, fails: [showTableSource] of the document-store
    dialect returns the empty string, which stands in for a statement, and no
    Unsupported result. *)
Lemma showTableSource_returns_empty_string :
  EsDialect.showTableSource "shop" "orders" = Return "" ∧
  asStatementResult (EsDialect.showTableSource "shop" "orders")
    = Some (Generated "") ∧
  ¬ isUnsupported (asStatementResult (EsDialect.showTableSource "shop" "orders")).
Proof.
  split; [reflexivity |]. split; [reflexivity |].
  intros (? & ? & H). discriminate H.
Qed.

(** C4, amended: for EsDialect and every database and object name, each of
    [showTableSource], [showViewSource], [showProcedureSource],
    [showFunctionSource] and [showTriggerSource] returns the empty string
    and does not throw. *)
Theorem EsDialect_show_source_empty (database name : string) :
  EsDialect.showTableSource database name = Return "" ∧
  EsDialect.showViewSource database name = Return "" ∧
  EsDialect.showProcedureSource database name = Return "" ∧
  EsDialect.showFunctionSource database name = Return "" ∧
  EsDialect.showTriggerSource database name = Return "".
Proof. repeat split. Qed.

(** C5, as the spec states it, fails: for page size 20 [buildPageSql] returns
    the empty string, which carries no offset (not the 40 of page index 2),
    and for page size 0 it returns the empty string as well, not an
    InvalidRequest. *)
Lemma buildPageSql_no_offset_no_validation :
  PrimFloat.ltb 0 20 = true ∧
  EsDialect.buildPageSql "shop" "orders" 20 = Return "" ∧
  mentionsOffset (2 * 20) "" = false ∧
  PrimFloat.leb 0 0 = true ∧
  EsDialect.buildPageSql "shop" "orders" 0 = Return "" ∧
  ¬ isInvalidRequest (asStatementResult (EsDialect.buildPageSql "shop" "orders" 0)).
Proof.
  repeat split; try reflexivity.
  intros (? & H). discriminate H.
Qed.

(** C5, amended: for EsDialect, [buildPageSql] returns the empty string for
    every database, every table and every page size, positive or not; it
    takes no page index, computes no offset and returns no InvalidRequest. *)
Theorem EsDialect_buildPageSql_empty (database table : string) (pageSize : float) :
  EsDialect.buildPageSql database table pageSize = Return "" ∧
  asStatementResult (EsDialect.buildPageSql database table pageSize)
    = Some (Generated "").
Proof. split; reflexivity. Qed.

(** C7, as the spec states it, fails: [showTables] with an empty database
    name returns a string, the same as for any other name, and no
    InvalidRequest. *)
Lemma showTables_empty_database_not_rejected :
  req_database emptyRequest = "" ∧
  call showTables emptyRequest = Return "" ∧
  asStatementResult (call showTables emptyRequest) = Some (Generated "") ∧
  ¬ isInvalidRequest (asStatementResult (call showTables emptyRequest)).
Proof.
  repeat split. apply call_never_error_value.
Qed.

(** C7, amended: EsDialect validates no field of a request: every operation
    completes the same way for a request with empty fields as for any other
    request, and no call returns an InvalidRequest. *)
Theorem EsDialect_no_validation (op : operation) (req req' : OperationRequest) :
  call op req = call op req' ∧
  call op req = call op emptyRequest ∧
  ¬ isInvalidRequest (asStatementResult (call op req)).
Proof.
  split; [| split].
  - destruct op; reflexivity.
  - destruct op; reflexivity.
  - apply call_never_error_value.
Qed.

(** * Properties of identifier quoting *)

Lemma unescape_escape (close : ascii) (s : string) :
  Quoting.unescape close
    (Quoting.escape close s ++ String close EmptyString) = Some s.
Proof.
  induction s as [| c rest IH]; simpl.
  - rewrite Ascii.eqb_refl. reflexivity.
  - destruct (Ascii.eqb c close) eqn:Hc; simpl.
    + apply Ascii.eqb_eq in Hc. subst c.
      rewrite Ascii.eqb_refl, IH. reflexivity.
    + rewrite Hc, IH. reflexivity.
Qed.

(** C8: for every quoting style and every identifier, embedded quote
    characters included, unquoting the quoted identifier gives the
    identifier back. *)
Theorem unquote_quote (style : Quoting.QuoteStyle) (identifier : string) :
  Quoting.unquote style (Quoting.quote style identifier) = Some identifier.
Proof.
  unfold Quoting.unquote, Quoting.quote.
  destruct (Quoting.delimiters style) as [[open close] |]; [| reflexivity].
  rewrite Ascii.eqb_refl. apply unescape_escape.
Qed.

Example quote_backtick_embedded :
  Quoting.quote Quoting.Backtick "my`table" = "`my``table`".
Proof. reflexivity. Qed.

Example quote_bracket_embedded :
  Quoting.quote Quoting.Bracket "a]b" = "[a]]b]".
Proof. reflexivity. Qed.

Example unquote_rejects_unescaped :
  Quoting.unquote Quoting.Backtick "`my`table`" = None.
Proof. reflexivity. Qed.

(** * Properties of the tree data provider *)

Lemma set_parent_idemp element n :
  set_parent element (set_parent element n) = set_parent element n.
Proof. reflexivity. Qed.

Lemma setParents_lookup element children (h : gmap loc Node) l :
  setParents element children h !! l
  = if decide (l ∈ children) then set_parent element <$> h !! l else h !! l.
Proof.
  unfold setParents. revert h.
  induction children as [| c rest IH]; intros h.
  - rewrite decide_False by apply not_elem_of_nil. reflexivity.
  - cbn [foldl]. rewrite IH. destruct (decide (l = c)) as [-> | Hne].
    + rewrite lookup_alter_eq.
      rewrite (decide_True (P := c ∈ c :: rest)) by apply list_elem_of_here.
      case_decide; [| reflexivity].
      destruct (h !! c); reflexivity.
    + rewrite lookup_alter_ne by congruence.
      destruct (decide (l ∈ rest)) as [Hin | Hout].
      * rewrite decide_True by (apply list_elem_of_further, Hin). reflexivity.
      * rewrite decide_False; [reflexivity |].
        rewrite not_elem_of_cons. tauto.
Qed.

Section ProviderFacts.

Variable constructedGlobal : Construction → option bool.

Lemma construction_getNode this connectInfo k :
  construction (getNode constructedGlobal this connectInfo k)
  = construct connectInfo k.
Proof. unfold getNode. simpl. repeat case_decide; reflexivity. Qed.

Lemma key_construct connectInfo k :
  match construct connectInfo k with
  | NewEsConnectionNode k' _ | NewRedisConnectionNode k' _
  | NewSSHConnectionNode k' _ _ | NewConnectionNode k' _ => k' = k
  | NewInfoNode _ | NewOther _ => False
  end.
Proof. unfold construct. repeat case_decide; reflexivity. Qed.

Lemma key_getNode this connectInfo k :
  key (getNode constructedGlobal this connectInfo k) = Some k.
Proof.
  unfold key. rewrite construction_getNode.
  pose proof (key_construct connectInfo k) as H.
  destruct (construct connectInfo k); simpl in H; first [congruence | contradiction].
Qed.

End ProviderFacts.

(** C3, as the spec states it, fails: a stored connection of a kind that is
    not listed resolves, in [getNode], to the default [ConnectionNode]; the
    resolution does not fail. *)
Lemma getNode_unlisted_kind_resolves_to_default :
  dbType futureInfo = OtherType "Future_Unlisted" ∧
  construct futureInfo "later@3306" = NewConnectionNode "later@3306" futureInfo ∧
  (∀ constructedGlobal this,
     construction (getNode constructedGlobal this futureInfo "later@3306")
     = NewConnectionNode "later@3306" futureInfo).
Proof.
  split; [reflexivity |]. split; [reflexivity |].
  intros. rewrite construction_getNode. reflexivity.
Qed.

(** C3, amended: for every [dbType] other than ES, REDIS and SSH, an unknown
    or future kind included, [getNode] does not fail: it resolves to the
    default [ConnectionNode], constructed from the key and the stored
    connection. *)
Theorem getNode_default_ConnectionNode
    (constructedGlobal : Construction → option bool)
    (this : DbTreeDataProvider) (connectInfo : ConnectInfo) (k : string) :
  dbType connectInfo ∉ [ES; REDIS; SSH] →
  construction (getNode constructedGlobal this connectInfo k)
  = NewConnectionNode k connectInfo.
Proof.
  rewrite !not_elem_of_cons. intros (Hes & Hredis & Hssh & _).
  rewrite construction_getNode. unfold construct.
  rewrite !decide_False by assumption. reflexivity.
Qed.

Lemma getNode_default_ConnectionNode_witness :
  construction
    (getNode (λ _, None) (mkDbTreeDataProvider (mkExtensionContext ∅ ∅) "c")
       futureInfo "later@3306")
  = NewConnectionNode "later@3306" futureInfo.
Proof.
  apply (getNode_default_ConnectionNode (λ _, None)
           (mkDbTreeDataProvider (mkExtensionContext ∅ ∅) "c")
           futureInfo "later@3306").
  rewrite !not_elem_of_cons.
  repeat split; [discriminate .. | apply not_elem_of_nil].
Defined.

Lemma setParents_assigned element children (h : gmap loc Node) :
  parentsAssigned element children h (setParents element children h).
Proof.
  split.
  - intros child n Hin Hn. exists (set_parent element n).
    rewrite setParents_lookup, decide_True by assumption. rewrite Hn.
    repeat split.
  - intros l Hout. rewrite setParents_lookup, decide_False by assumption.
    reflexivity.
Qed.

Section Loop.

Variable typeError : Fault → Error.

Lemma assignParents_objects element children (h : gmap loc Node) :
  assignParents typeError element (NodeAt <$> children) h
  = (setParents element children h, Return children).
Proof.
  revert h. induction children as [| child rest IH]; intros h; simpl;
    [reflexivity |].
  rewrite IH. reflexivity.
Qed.

Lemma assignParents_no_node element children v rest (h : gmap loc Node) :
  assignParents typeError element ((NodeAt <$> children) ++ NoNode v :: rest)%list h
  = (setParents element children h, Throw (typeError (CannotSetParent v))).
Proof.
  revert h. induction children as [| child children IH]; intros h; simpl;
    [reflexivity |].
  rewrite IH. reflexivity.
Qed.

End Loop.

(** C9, as the claim states it, fails: the [getChildren()] of the element
    succeeds with an array that holds a node and [null]; the loop throws at
    the [null], inside the [try], and the provider returns one [InfoNode] for
    that [TypeError] and not the children. *)
Lemma getChildren_null_child_gives_InfoNode :
  nullChildGetChildren 1%positive sampleHeap
  = (sampleHeap, Return (ChildrenArray [NodeAt 2%positive; NoNode Null])) ∧
  (getChildren (λ _, None) nullChildGetChildren sampleTypeError sampleProvider
     (Some 1%positive) sampleHeap).2 = Return [4%positive] ∧
  construction
    <$> (getChildren (λ _, None) nullChildGetChildren sampleTypeError
           sampleProvider (Some 1%positive) sampleHeap).1 !! 4%positive
  = Some (NewInfoNode (sampleTypeError (CannotSetParent Null))) ∧
  node_parent
    <$> (getChildren (λ _, None) nullChildGetChildren sampleTypeError
           sampleProvider (Some 1%positive) sampleHeap).1 !! 2%positive
  = Some (Some 1%positive).
Proof. repeat split; vm_compute; reflexivity. Qed.

(** C9, amended: for an element that is given, [getChildren] never rejects.
    When the element's own [getChildren()] throws, it returns a list of one
    new [InfoNode] that wraps the error.  When that call returns an array of
    node objects, it returns these children, each with its [parent] set to
    the element and nothing else changed.  When that call returns [null] or
    [undefined], or an array with such an entry, the loop throws inside the
    [try] and the provider returns a list of one new [InfoNode] that wraps
    the [TypeError]; the children before the entry have their [parent] set
    already. *)
Theorem getChildren_of_element
    (constructedGlobal : Construction → option bool)
    (elementGetChildren :
       loc → gmap loc Node → gmap loc Node * completion Children)
    (typeError : Fault → Error)
    (this : DbTreeDataProvider) (element : loc) (h : gmap loc Node) :
  let result :=
    getChildren constructedGlobal elementGetChildren typeError this
      (Some element) h in
  throws result.2 = false ∧
  match elementGetChildren element h with
  | (h1, Throw error) => fulfilledWithInfoNode error h1 result
  | (h1, Return (NoChildren v)) =>
      fulfilledWithInfoNode (typeError (NotIterable v)) h1 result
  | (h1, Return (ChildrenArray items)) =>
      (∀ children, items = NodeAt <$> children →
         ∃ h2, result = (h2, Return children) ∧
               parentsAssigned element children h1 h2) ∧
      (∀ children v rest,
         items = ((NodeAt <$> children) ++ NoNode v :: rest)%list →
         ∃ h2, parentsAssigned element children h1 h2 ∧
               fulfilledWithInfoNode (typeError (CannotSetParent v)) h2 result)
  end.
Proof.
  intros result. subst result.
  assert (Hinfo : ∀ error h1,
            fulfilledWithInfoNode error h1
              (let (l, h2) := alloc (new constructedGlobal (NewInfoNode error)) h1
               in (h2, Return [l]))).
  { intros error h1. unfold alloc.
    exists (fresh (dom h1)), (new constructedGlobal (NewInfoNode error)).
    split; [apply not_elem_of_dom, is_fresh |]. split; reflexivity. }
  unfold getChildren, tryGetChildren.
  destruct (elementGetChildren element h) as [h1 [[v | items] | error]].
  - split; [reflexivity | apply Hinfo].
  - split.
    + destruct (assignParents typeError element items h1) as [h2 [ls | error]];
        reflexivity.
    + split.
      * intros children ->. rewrite assignParents_objects.
        exists (setParents element children h1).
        split; [reflexivity | apply setParents_assigned].
      * intros children v rest ->. rewrite assignParents_no_node.
        exists (setParents element children h1).
        split; [apply setParents_assigned | apply Hinfo].
  - split; [reflexivity | apply Hinfo].
Qed.

Lemma getChildren_of_element_witness :
  (getChildren (λ _, None) sampleGetChildren sampleTypeError sampleProvider
     (Some 1%positive) sampleHeap).2 = Return [2%positive; 3%positive] ∧
  node_parent
    <$> (getChildren (λ _, None) sampleGetChildren sampleTypeError
           sampleProvider (Some 1%positive) sampleHeap).1 !! 2%positive
  = Some (Some 1%positive).
Proof.
  destruct (getChildren_of_element (λ _, None) sampleGetChildren
              sampleTypeError sampleProvider 1%positive sampleHeap)
    as [_ H].
  unfold sampleGetChildren at 1 in H. destruct H as [Hobjects _].
  destruct (Hobjects [2%positive; 3%positive] eq_refl)
    as (h2 & Heq & Hset & _).
  rewrite Heq. split; [reflexivity |]. simpl.
  destruct (Hset 2%positive (plainNode "orders")) as (n' & Hn' & Hparent & _).
  - apply list_elem_of_here.
  - reflexivity.
  - rewrite Hn'. simpl. rewrite Hparent. reflexivity.
Defined.

Section ConnectionNodes.

Variable constructedGlobal : Construction → option bool.
Variable this : DbTreeDataProvider.

Lemma keys_getConnectionNodes :
  key <$> getConnectionNodes constructedGlobal this
  = Some <$>
      (map_to_list
         (spread (globalConnections this) (workspaceConnections this))).*1.
Proof.
  unfold getConnectionNodes. cbv zeta.
  rewrite <- !list_fmap_compose. apply list_fmap_ext.
  intros i [k connectInfo] _. simpl. apply key_getNode.
Qed.

Lemma getConnectionNodes_of_entry k connectInfo :
  spread (globalConnections this) (workspaceConnections this) !! k
  = Some connectInfo →
  getNode constructedGlobal this connectInfo k
    ∈ getConnectionNodes constructedGlobal this ∧
  ∀ n, n ∈ getConnectionNodes constructedGlobal this → key n = Some k →
       n = getNode constructedGlobal this connectInfo k.
Proof.
  intros Hk. unfold getConnectionNodes. cbv zeta. split.
  - apply list_elem_of_fmap. exists (k, connectInfo). split; [reflexivity |].
    apply elem_of_map_to_list. exact Hk.
  - intros n Hn Hkey. apply list_elem_of_fmap in Hn as ([k' info'] & -> & Hin).
    simpl in *. rewrite key_getNode in Hkey. injection Hkey as ->.
    apply elem_of_map_to_list in Hin. congruence.
Qed.

End ConnectionNodes.

(** C10: [getConnectionNodes] returns exactly one node per connection key of
    the union of the global and the workspace store, and for a key that both
    stores hold, the node is the one made from the workspace entry. *)
Theorem getConnectionNodes_one_node_per_key
    (constructedGlobal : Construction → option bool)
    (this : DbTreeDataProvider) (k : string) :
  let nodes := getConnectionNodes constructedGlobal this in
  NoDup (key <$> nodes) ∧
  length nodes
  = size (dom (globalConnections this) ∪ dom (workspaceConnections this)) ∧
  (Some k ∈ key <$> nodes
   ↔ k ∈ dom (globalConnections this) ∪ dom (workspaceConnections this)) ∧
  (∀ workspaceInfo, workspaceConnections this !! k = Some workspaceInfo →
     getNode constructedGlobal this workspaceInfo k ∈ nodes ∧
     ∀ n, n ∈ nodes → key n = Some k →
          n = getNode constructedGlobal this workspaceInfo k) ∧
  (∀ globalInfo, globalConnections this !! k = Some globalInfo →
     workspaceConnections this !! k = None →
     getNode constructedGlobal this globalInfo k ∈ nodes ∧
     ∀ n, n ∈ nodes → key n = Some k →
          n = getNode constructedGlobal this globalInfo k).
Proof.
  intros nodes. subst nodes.
  assert (Hdom : dom (spread (globalConnections this) (workspaceConnections this))
                 = dom (globalConnections this) ∪ dom (workspaceConnections this)).
  { unfold spread. rewrite dom_union_L. apply (comm_L (∪)). }
  split; [| split; [| split; [| split]]].
  - rewrite keys_getConnectionNodes.
    apply (NoDup_fmap_2 Some), NoDup_fst_map_to_list.
  - rewrite <- Hdom, size_dom. unfold getConnectionNodes. cbv zeta.
    rewrite length_fmap. apply length_map_to_list.
  - rewrite keys_getConnectionNodes, <- Hdom.
    rewrite (list_elem_of_fmap_inj Some), elem_of_dom.
    rewrite list_elem_of_fmap. split.
    + intros ([k' info] & -> & Hin). simpl.
      apply elem_of_map_to_list in Hin. eauto.
    + intros [info Hinfo]. exists (k, info). split; [reflexivity |].
      apply elem_of_map_to_list. exact Hinfo.
  - intros workspaceInfo Hw. apply getConnectionNodes_of_entry.
    unfold spread. apply lookup_union_Some_l. exact Hw.
  - intros globalInfo Hg Hw. apply getConnectionNodes_of_entry.
    unfold spread. rewrite lookup_union_r by exact Hw. exact Hg.
Qed.

Lemma getConnectionNodes_one_node_per_key_witness :
  globalConnections sampleProvider !! "prod" = Some prodInfo ∧
  workspaceConnections sampleProvider !! "prod" = Some prodLocalInfo ∧
  getNode (λ _, None) sampleProvider prodLocalInfo "prod"
    ∈ getConnectionNodes (λ _, None) sampleProvider ∧
  getNode (λ _, None) sampleProvider prodInfo "prod"
    ∉ getConnectionNodes (λ _, None) sampleProvider.
Proof.
  assert (Hg : globalConnections sampleProvider !! "prod" = Some prodInfo)
    by (vm_compute; reflexivity).
  assert (Hw : workspaceConnections sampleProvider !! "prod" = Some prodLocalInfo)
    by (vm_compute; reflexivity).
  destruct (getConnectionNodes_one_node_per_key (λ _, None) sampleProvider "prod")
    as (_ & _ & _ & Hworkspace & _).
  destruct (Hworkspace prodLocalInfo Hw) as [Hin Honly].
  split; [exact Hg |]. split; [exact Hw |]. split; [exact Hin |].
  intros Hglobal. apply Honly in Hglobal.
  - discriminate Hglobal.
  - apply key_getNode.
Defined.

Example getConnectionNodes_sample :
  construction <$> getConnectionNodes (λ _, None) sampleProvider
  ≡ₚ [NewEsConnectionNode "prod" prodLocalInfo;
      NewRedisConnectionNode "staging" stagingInfo].
Proof. vm_compute. apply perm_swap. Qed.

Example getChildren_failing_element :
  getChildren (λ _, None) failingGetChildren sampleTypeError sampleProvider
    (Some 1%positive) sampleHeap
  = (<[4%positive := mkNode (NewInfoNode (mkError "connect ECONNREFUSED"))
                       None None None None]> sampleHeap,
     Return [4%positive]).
Proof. vm_compute. reflexivity. Qed.

(** X1: [getNode] keeps an explicit [global === false] and makes every other
    value [true]; the node's context is the workspace state exactly when
    [global] is [false], and its provider is the provider that made it. *)
Theorem getNode_global_and_context
    (constructedGlobal : Construction → option bool)
    (this : DbTreeDataProvider) (connectInfo : ConnectInfo) (k : string) :
  let node := getNode constructedGlobal this connectInfo k in
  let explicitFalse :=
    bool_decide (constructedGlobal (construct connectInfo k) = Some false) in
  node_provider node = Some this ∧
  node_global node = Some (negb explicitFalse) ∧
  node_context node
  = Some (if explicitFalse then WorkspaceState else GlobalState).
Proof.
  unfold getNode, new. simpl.
  destruct (constructedGlobal (construct connectInfo k)) as [[|] |]; simpl;
    repeat split.
Qed.

(** * Further properties of the tree data provider *)

(** ** The cache key *)

(** X2: a connection is kept under [CacheKey.ConectionsKey] exactly when
    [getNode] shows it as a plain [ConnectionNode], and under
    [CacheKey.NOSQL_CONNECTION] exactly when its [dbType] is ES, REDIS or
    SSH, the kinds [getNode] gives a class of their own. *)
Theorem getKeyByNode_matches_construct (connectionNode : ConnectInfo) (k : string) :
  (getKeyByNode connectionNode = ConectionsKey
   ↔ construct connectionNode k = NewConnectionNode k connectionNode) ∧
  (getKeyByNode connectionNode = NOSQL_CONNECTION
   ↔ dbType connectionNode ∈ [ES; REDIS; SSH]).
Proof.
  unfold getKeyByNode, construct.
  rewrite !elem_of_cons, elem_of_nil.
  destruct (decide (dbType connectionNode = ES)) as [Hes | Hes].
  { rewrite (bool_decide_eq_true_2 _ Hes). simpl. split; split; try done; auto. }
  rewrite (bool_decide_eq_false_2 _ Hes).
  destruct (decide (dbType connectionNode = REDIS)) as [Hredis | Hredis].
  { rewrite (bool_decide_eq_true_2 _ Hredis). simpl.
    split; split; try done; auto. }
  rewrite (bool_decide_eq_false_2 _ Hredis).
  destruct (decide (dbType connectionNode = SSH)) as [Hssh | Hssh].
  { rewrite (bool_decide_eq_true_2 _ Hssh). simpl.
    split; split; try done; auto. }
  rewrite (bool_decide_eq_false_2 _ Hssh). simpl.
  split; split; try done. tauto.
Qed.

(** ** The registry of providers *)

Lemma fire_all_spec element (l : list DbTreeDataProvider) (r : Registry) :
  foldl (λ r instance, fire instance element r) r l
  = mkRegistry (instances r) (fired r ++ ((λ p, (p, element)) <$> l))%list.
Proof.
  revert r. induction l as [| p l IH]; intros r; simpl.
  - rewrite app_nil_r. destruct r; reflexivity.
  - rewrite IH. simpl. rewrite <- app_assoc. reflexivity.
Qed.

Lemma instances_registryStep r c p :
  p ∈ instances r → p ∈ instances (registryStep r c).
Proof.
  intros Hp. destruct c as [context k | this element | element]; simpl.
  - apply elem_of_app. left. exact Hp.
  - exact Hp.
  - unfold refresh. rewrite fire_all_spec. exact Hp.
Qed.

Lemma instances_registryRun calls r p :
  p ∈ instances r → p ∈ instances (registryRun calls r).
Proof.
  unfold registryRun. revert r.
  induction calls as [| c calls IH]; intros r Hp; simpl; [exact Hp |].
  apply IH, instances_registryStep, Hp.
Qed.


(** X4: a provider is never taken off [instances]: whatever is constructed,
    reloaded or refreshed before and after its construction, it is among
    [getInstnace()] afterwards, and a later [refresh] fires its event. *)
Theorem constructed_provider_is_refreshed
    (before after : list RegistryCall) (context : ExtensionContext)
    (k : string) (element : option loc) (r : Registry) :
  let this := mkDbTreeDataProvider context k in
  this ∈ getInstnace (registryRun (before ++ CallNew context k :: after)%list r) ∧
  (this, element)
    ∈ fired
        (registryRun
           (before ++ CallNew context k :: after ++ [CallRefresh element])%list
           r).
Proof.
  intros this.
  assert (Hin : ∀ r', this ∈ instances
                        (registryRun (CallNew context k :: after) r')).
  { intros r'. unfold registryRun. simpl. apply instances_registryRun.
    apply elem_of_app. right. apply list_elem_of_here. }
  split.
  - unfold getInstnace, registryRun. rewrite foldl_app. apply Hin.
  - unfold registryRun. rewrite foldl_app.
    change (CallNew context k :: after ++ [CallRefresh element])%list
      with ((CallNew context k :: after) ++ [CallRefresh element])%list.
    rewrite foldl_app. simpl. unfold refresh at 1. rewrite fire_all_spec. simpl.
    apply elem_of_app. right.
    apply (list_elem_of_fmap_2 (λ p, (p, element))). apply Hin.
Qed.

(** ** The children of the root *)

Lemma allocAll_spec (ns : list Node) (h : gmap loc Node) :
  let ls := (allocAll ns h).1 in
  let h' := (allocAll ns h).2 in
  length ls = length ns ∧
  NoDup ls ∧
  (∀ l, l ∈ ls → h !! l = None) ∧
  (∀ i l, ls !! i = Some l → h' !! l = ns !! i) ∧
  (∀ l, l ∉ ls → h' !! l = h !! l).
Proof.
  revert h.
  induction ns as [| n rest IH]; intros h; simpl.
  - repeat split; auto using NoDup_nil_2.
    + intros l Hl. by apply elem_of_nil in Hl.
    + intros i l Hl. discriminate Hl.
  - unfold alloc. set (l0 := fresh (dom h)). set (h1 := <[l0 := n]> h).
    specialize (IH h1). destruct (allocAll rest h1) as [ls h2]. simpl in *.
    destruct IH as (Hlen & Hnodup & Hfresh & Hget & Hframe).
    assert (Hl0 : h !! l0 = None) by apply not_elem_of_dom, is_fresh.
    assert (Hnotin : l0 ∉ ls).
    { intros Hin. apply Hfresh in Hin. unfold h1 in Hin.
      rewrite lookup_insert_eq in Hin. discriminate Hin. }
    repeat split.
    + by rewrite Hlen.
    + apply NoDup_cons_2; assumption.
    + intros l [-> | Hin]%elem_of_cons; [exact Hl0 |].
      pose proof (Hfresh l Hin) as Hl. unfold h1 in Hl.
      destruct (decide (l0 = l)) as [-> | Hne]; [exact Hl0 |].
      by rewrite lookup_insert_ne in Hl.
    + intros [| i] l Hl; simpl in *.
      * injection Hl as <-. rewrite (Hframe l0 Hnotin). unfold h1.
        apply lookup_insert_eq.
      * apply Hget, Hl.
    + intros l [Hne Hout]%not_elem_of_cons. rewrite (Hframe l Hout).
      unfold h1. by rewrite lookup_insert_ne.
Qed.

Lemma length_getConnectionNodes (constructedGlobal : Construction → option bool)
    (this : DbTreeDataProvider) :
  length (getConnectionNodes constructedGlobal this)
  = size (dom (globalConnections this) ∪ dom (workspaceConnections this)).
Proof.
  unfold getConnectionNodes. cbv zeta.
  rewrite length_fmap, length_map_to_list, <- size_dom. f_equal.
  unfold spread. rewrite dom_union_L. apply (comm_L (∪)).
Qed.

(** X5: without an element, [getChildren] is fulfilled with one new object
    per stored connection key: the returned references are as many as the
    keys of the two stores together, they are pairwise distinct and were not
    in use before, the i-th of them holds the i-th node of
    [getConnectionNodes], and no object that existed before is changed. *)
Theorem getChildren_of_root
    (constructedGlobal : Construction → option bool)
    (elementGetChildren :
       loc → gmap loc Node → gmap loc Node * completion Children)
    (typeError : Fault → Error)
    (this : DbTreeDataProvider) (h : gmap loc Node) :
  ∃ ls h',
    getChildren constructedGlobal elementGetChildren typeError this None h
    = (h', Return ls) ∧
    length ls
    = size (dom (globalConnections this) ∪ dom (workspaceConnections this)) ∧
    NoDup ls ∧
    (∀ l, l ∈ ls → h !! l = None) ∧
    (∀ i l, ls !! i = Some l →
       h' !! l = getConnectionNodes constructedGlobal this !! i) ∧
    (∀ l, l ∉ ls → h' !! l = h !! l).
Proof.
  pose proof (allocAll_spec (getConnectionNodes constructedGlobal this) h)
    as Hspec.
  unfold getChildren.
  destruct (allocAll (getConnectionNodes constructedGlobal this) h) as [ls h'].
  simpl in Hspec. destruct Hspec as (Hlen & Hnodup & Hfresh & Hget & Hframe).
  exists ls, h'. repeat split; try assumption.
  rewrite Hlen. apply length_getConnectionNodes.
Qed.

(** X6: when neither the global nor the workspace state has a value under
    the provider's connection key, [getConnectionNodes] is the empty list,
    and [getChildren] without an element is fulfilled with no children and
    allocates nothing. *)
Theorem getConnectionNodes_missing_key
    (constructedGlobal : Construction → option bool)
    (elementGetChildren :
       loc → gmap loc Node → gmap loc Node * completion Children)
    (typeError : Fault → Error)
    (this : DbTreeDataProvider) (h : gmap loc Node) :
  globalState (context this) !! connectionKey this = None →
  workspaceState (context this) !! connectionKey this = None →
  getConnectionNodes constructedGlobal this = [] ∧
  getChildren constructedGlobal elementGetChildren typeError this None h
  = (h, Return []).
Proof.
  intros Hg Hw.
  assert (Hnodes : getConnectionNodes constructedGlobal this = []).
  { unfold getConnectionNodes, spread, globalConnections,
      workspaceConnections, Memento_get. cbv zeta.
    rewrite Hg, Hw. simpl. rewrite (left_id_L ∅ (∪)).
    rewrite map_to_list_empty. reflexivity. }
  split; [exact Hnodes |].
  unfold getChildren. rewrite Hnodes. reflexivity.
Qed.

Lemma getConnectionNodes_missing_key_witness :
  getConnectionNodes (λ _, None) emptyProvider = [] ∧
  getChildren (λ _, None) sampleGetChildren sampleTypeError emptyProvider None
    sampleHeap
  = (sampleHeap, Return []).
Proof.
  apply (getConnectionNodes_missing_key (λ _, None) sampleGetChildren
           sampleTypeError emptyProvider sampleHeap); reflexivity.
Defined.

(** ** activeDb *)

Lemma collectDbIds_fold (numbers : bool) (nodes : list DbNode)
    (acc : list string * gmap string DbNode) :
  let result :=
    foldl
      (λ (acc : list string * gmap string DbNode) dbNode,
         if skipped dbNode then acc
         else ((acc.1 ++ [dbId numbers dbNode])%list,
               <[dbId numbers dbNode := dbNode]> acc.2))
      acc nodes in
  result.1
  = (acc.1 ++ (dbId numbers <$> filter (λ n, skipped n = false) nodes))%list ∧
  ∀ id,
    result.2 !! id
    = match
        last (filter (λ n, skipped n = false ∧ dbId numbers n = id) nodes)
      with
      | Some dbNode => Some dbNode
      | None => acc.2 !! id
      end.
Proof.
  revert acc. induction nodes as [| n rest IH]; intros acc; cbn [foldl].
  - split; [by rewrite app_nil_r | reflexivity].
  - destruct (skipped n) eqn:Hskip.
    + destruct (IH acc) as [Hlist Hmap]. split.
      * rewrite Hlist, filter_cons_False by congruence. reflexivity.
      * intros id. rewrite Hmap, filter_cons_False; [reflexivity |].
        intros [? _]. congruence.
    + destruct (IH ((acc.1 ++ [dbId numbers n])%list,
                    <[dbId numbers n := n]> acc.2)) as [Hlist Hmap].
      split.
      * rewrite Hlist, filter_cons_True by assumption. simpl.
        rewrite <- app_assoc. reflexivity.
      * intros id. rewrite Hmap. simpl.
        destruct (decide (dbId numbers n = id)) as [Heq | Hne].
        -- rewrite filter_cons_True by done. rewrite last_cons.
           destruct (last _); [reflexivity |].
           rewrite Heq. apply lookup_insert_eq.
        -- rewrite filter_cons_False by (intros [_ ?]; done).
           destruct (last _); [reflexivity |].
           by rewrite lookup_insert_ne.
Qed.

Lemma collectDbIds_spec (numbers : bool) (nodes : list DbNode) :
  (collectDbIds numbers nodes).1
  = dbId numbers <$> filter (λ n, skipped n = false) nodes ∧
  ∀ id,
    (collectDbIds numbers nodes).2 !! id
    = last (filter (λ n, skipped n = false ∧ dbId numbers n = id) nodes).
Proof.
  destruct (collectDbIds_fold numbers nodes ([], ∅)) as [Hlist Hmap].
  split; [exact Hlist |].
  intros id. unfold collectDbIds. rewrite Hmap. simpl.
  destruct (last _); [reflexivity | apply lookup_empty].
Qed.

Lemma truthy_nonempty (s : string) : truthy s = true ↔ s ≠ "".
Proof. destruct s; simpl; split; congruence. Qed.




(** X9: [activeDb] changes the active schema only when no query file is
    active and the quick pick resolved to an entry that is not the empty
    string; with a query file active, or the pick dismissed or empty, no
    [changeActive] is called. *)
Theorem activeDb_change_guard
    (constructedGlobal : Construction → option bool)
    (this : DbTreeDataProvider) (activeFileNode : option DbNode)
    (databaseNodeList : list DbNode) (pick : list string → option string)
    (changed : option DbNode) :
  let numbers :=
    bool_decide
      (1 < size (dom (globalConnections this) ∪ dom (workspaceConnections this))) in
  let items :=
    dbId numbers <$> filter (λ n, skipped n = false) databaseNodeList in
  ChangeActive changed
    ∈ activeDb constructedGlobal this activeFileNode databaseNodeList pick →
  activeFileNode = None ∧ ∃ picked, pick items = Some picked ∧ picked ≠ "".
Proof.
  intros numbers items. unfold activeDb. cbv zeta.
  destruct activeFileNode as [file |].
  { rewrite elem_of_cons, elem_of_nil. intros [H | []]. discriminate H. }
  rewrite length_getConnectionNodes. fold numbers.
  rewrite (proj1 (collectDbIds_spec numbers databaseNodeList)). fold items.
  rewrite elem_of_cons. intros [H | Hin]; [discriminate H |].
  split; [reflexivity |].
  destruct (pick items) as [picked |]; [| by apply elem_of_nil in Hin].
  exists picked. split; [reflexivity |].
  apply truthy_nonempty. destruct (truthy picked); [reflexivity |].
  by apply elem_of_nil in Hin.
Qed.

Lemma activeDb_change_guard_witness :
  (None : option DbNode) = None ∧
  ∃ picked,
    (λ _ : list string, Some "crm")
      (dbId false <$> filter (λ n, skipped n = false) sampleCache)
    = Some picked ∧ picked ≠ "".
Proof.
  apply (activeDb_change_guard (λ _, None) emptyProvider None sampleCache
           (λ _, Some "crm") (Some (mkDbNode SchemaNode "prod#crm" "crm"))).
  vm_compute. apply list_elem_of_further, list_elem_of_here.
Defined.
